(** * VeridianOS boot scripts: a shallow embedding

    The repository holds three Python scripts that package and smoke-test
    a kernel binary built elsewhere:

    - [scripts/testing/test-x86-kernel.py]  (module [TestX86Kernel])
    - [scripts/build-disk-image.py]         (module [BuildDiskImage])
    - [create-uefi-image.py]                (module [CreateUefiImage])

    Each script is a straight-line program over an environment (does the
    kernel file exist, what does [subprocess.run] do for a command line)
    that prints lines for the operator and returns, raises or exits.  The
    embedding is a small monad [Py] with a reader (the environment), a
    state (what was printed, which commands were started, the disk) and
    Python's two abrupt completions: a raised exception and [sys.exit]. *)

From Stdlib Require Import String Ascii List ZArith Lia Bool.
From Stdlib Require Import Decimal DecimalString.
Import ListNotations.
Open Scope string_scope.
Open Scope Z_scope.

(** ** Python strings

    A Python [str] is modelled by [string], holding the UTF-8 encoding of
    the text.  The marker tokens searched for are ASCII, and an ASCII byte
    never occurs inside a multi-byte UTF-8 sequence, so containment of a
    marker is the same on code points and on bytes. *)

Module PyStr.

(** [s.startswith(p)] *)
Fixpoint startswith (p s : string) : bool :=
  match p, s with
  | EmptyString, _ => true
  | String _ _, EmptyString => false
  | String a p', String b s' => Ascii.eqb a b && startswith p' s'
  end.

(** [needle in s] for two strings: substring search, leftmost position
    first. *)
Fixpoint str_in (needle s : string) : bool :=
  startswith needle s ||
  match s with
  | EmptyString => false
  | String _ s' => str_in needle s'
  end.

(** [sep.join(parts)] *)
Fixpoint join (sep : string) (parts : list string) : string :=
  match parts with
  | [] => ""
  | [x] => x
  | x :: rest => x ++ sep ++ join sep rest
  end.

(** [str(n)] for an integer, as an f-string interpolates it. *)
Definition str_of_int (n : Z) : string :=
  NilZero.string_of_int (Z.to_int n).

(** The declarative reading of containment: [needle] occurs in [s] with
    some text before it and some text after it. *)
Definition Occurs (needle s : string) : Prop :=
  exists before after, s = before ++ needle ++ after.

End PyStr.
Import PyStr.

(** ** Values, exceptions and completed processes *)

(** The values the three [main] functions return. *)
Inductive py_value : Type :=
| PyNone
| PyBool (b : bool)
| PyInt (n : Z).

(** What [subprocess.run] can raise.  Every exception carries the text
    [str(e)] gives; [TimeoutExpired] also carries the output captured
    before the child was killed. *)
Inductive exn : Type :=
| FileNotFoundError (str : string)
| TimeoutExpired (str : string) (output stderr : string)
| OtherError (str : string).

Definition exn_str (e : exn) : string :=
  match e with
  | FileNotFoundError s => s
  | TimeoutExpired s _ _ => s
  | OtherError s => s
  end.

(** [subprocess.CompletedProcess] with [capture_output=True, text=True]. *)
Record CompletedProcess : Type := mkCompleted {
  stdout : string;
  stderr : string;
  returncode : Z
}.

(** ** The machine the scripts run on *)

Definition disk : Type := string -> option (list Byte.byte).

(** What a script does that the outside can see. *)
Inductive event : Type :=
| EPrint (line : string)
| EExec (argv : list string) (timeout : option Z)
| EMkTemp
| EMkDirs (path : string)
| ERmTemp.

Record state : Type := mkState {
  events : list event;
  files : disk
}.

Record env : Type := mkEnv {
  path_exists : string -> bool;
  spawn : list string -> option Z -> disk -> (exn + CompletedProcess) * disk
}.

(** An abrupt completion: an exception on its way up, or [SystemExit]. *)
Inductive signal : Type :=
| Raised (e : exn)
| SystemExit (code : Z).

Inductive completion (A : Type) : Type :=
| Normal (a : A)
| Abrupt (s : signal).
Arguments Normal {A} a.
Arguments Abrupt {A} s.

Definition Py (A : Type) : Type := env -> state -> state * completion A.

Definition ret {A} (a : A) : Py A := fun _ st => (st, Normal a).

Definition bind {A B} (m : Py A) (k : A -> Py B) : Py B :=
  fun w st =>
    match m w st with
    | (st', Normal a) => k a w st'
    | (st', Abrupt s) => (st', Abrupt s)
    end.

Declare Scope py_scope.
Delimit Scope py_scope with py.
Notation "x <- m ;; k" := (bind m (fun x => k))
  (at level 61, m at next level, right associativity) : py_scope.
Notation "m ;; k" := (bind m (fun _ => k))
  (at level 61, right associativity) : py_scope.
Open Scope py_scope.

Definition emit (e : event) : Py unit :=
  fun _ st => (mkState (events st ++ [e]) (files st), Normal tt).

(** [print(line)] *)
Definition print (line : string) : Py unit := emit (EPrint line).

(** [raise e] and [sys.exit(code)] *)
Definition raise {A} (e : exn) : Py A := fun _ st => (st, Abrupt (Raised e)).
Definition sys_exit {A} (code : Z) : Py A :=
  fun _ st => (st, Abrupt (SystemExit code)).

(** [Path(p).exists()] *)
Definition exists_ (p : string) : Py bool :=
  fun w st => (st, Normal (path_exists w p)).

(** [subprocess.run(cmd, timeout=t, capture_output=True, text=True)]: the
    child is started, and the call returns its captured output or raises. *)
Definition subprocess_run (cmd : list string) (t : option Z)
  : Py CompletedProcess :=
  fun w st =>
    let st1 := mkState (events st ++ [EExec cmd t]) (files st) in
    match spawn w cmd t (files st1) with
    | (inr r, d) => (mkState (events st1) d, Normal r)
    | (inl e, d) => (mkState (events st1) d, Abrupt (Raised e))
    end.

(** [try: body  except ...: handler].  [handler e] is [None] when no
    [except] clause matches [e]; [SystemExit] is not an [Exception] and
    passes through every handler of these scripts. *)
Definition try_except {A} (body : Py A) (handler : exn -> option (Py A))
  : Py A :=
  fun w st =>
    match body w st with
    | (st', Abrupt (Raised e)) =>
        match handler e with
        | Some h => h w st'
        | None => (st', Abrupt (Raised e))
        end
    | r => r
    end.

(** A fresh machine: nothing printed yet, the disk as given. *)
Definition boot (d : disk) : state := mkState [] d.

(** The lines printed, in order. *)
Fixpoint printed (t : list event) : list string :=
  match t with
  | [] => []
  | EPrint l :: t' => l :: printed t'
  | _ :: t' => printed t'
  end.

(** The commands started, in order. *)
Fixpoint started (t : list event) : list (list string) :=
  match t with
  | [] => []
  | EExec c _ :: t' => c :: started t'
  | _ :: t' => started t'
  end.

(** What the operator reads: every printed line followed by a newline. *)
Definition newline : string := String (ascii_of_nat 10) "".

Fixpoint transcript (lines : list string) : string :=
  match lines with
  | [] => ""
  | l :: rest => l ++ newline ++ transcript rest
  end.

(** The exit status of [sys.exit(v)] for the values [main] returns. *)
Definition exit_status_of_value (v : py_value) : Z :=
  match v with
  | PyNone => 0
  | PyBool b => if b then 1 else 0
  | PyInt n => Z.land n 255
  end.

(** [if __name__ == "__main__": sys.exit(main())]: an exception nobody
    caught ends the interpreter with status 1. *)
Definition exit_status_sys_exit_main (c : completion py_value) : Z :=
  match c with
  | Normal v => exit_status_of_value v
  | Abrupt (SystemExit code) => Z.land code 255
  | Abrupt (Raised _) => 1
  end.

(** [if __name__ == "__main__": main()]: the value [main] returns is
    dropped. *)
Definition exit_status_main (c : completion py_value) : Z :=
  match c with
  | Normal _ => 0
  | Abrupt (SystemExit code) => Z.land code 255
  | Abrupt (Raised _) => 1
  end.

(** The outcome classes of the specification, together with the
    locator's [ArtifactNotFound]. *)
Inductive Classification : Type :=
| Success
| PartialSuccess
| Failure
| Timeout
| ToolMissing
| ArtifactNotFound.

Definition kernel_path : string :=
  "target/x86_64-unknown-none/debug/veridian-kernel".

(** ** scripts/testing/test-x86-kernel.py *)

Module TestX86Kernel.

Definition objdump_cmd : list string := ["objdump"; "-h"; kernel_path].

Definition cmd : list string :=
  [ "qemu-system-x86_64";
    "-kernel"; kernel_path;
    "-append"; "console=ttyS0";
    "-serial"; "stdio";
    "-display"; "none";
    "-m"; "512M";
    "-no-reboot";
    "-no-shutdown";
    "-device"; "isa-debug-exit,iobase=0xf4,iosize=0x04" ].

Definition msg_not_found : string :=
  "Kernel binary not found at: " ++ kernel_path.
Definition msg_success : string := "✅ SUCCESS: Found BOOTOK in output!".
Definition msg_partial : string :=
  "✅ PARTIAL SUCCESS: Found Stage 6 but no BOOTOK".
Definition msg_failure : string := "❌ No Stage 6 or BOOTOK found in output".
Definition msg_timeout : string :=
  "⏰ QEMU timed out after 15 seconds - checking if kernel is running...".
Definition msg_no_qemu : string :=
  "❌ QEMU not found. Please install qemu-system-x86_64".

(** [main()], lines 11-68. *)
Definition main : Py py_value :=
  present <- exists_ kernel_path ;;
  if negb present then
    print msg_not_found ;;
    ret (PyInt 1)
  else
    print ("Testing x86_64 kernel: " ++ kernel_path) ;;
    print "Creating simple test with QEMU multiboot..." ;;
    result <- subprocess_run objdump_cmd None ;;
    print "Kernel sections:" ;;
    print (stdout result) ;;
    print ("Running: " ++ join " " cmd) ;;
    try_except
      (result <- subprocess_run cmd (Some 15) ;;
       print "QEMU stdout:" ;;
       print (stdout result) ;;
       print "QEMU stderr:" ;;
       print (stderr result) ;;
       print ("QEMU exit code: " ++ str_of_int (returncode result)) ;;
       if str_in "BOOTOK" (stdout result) then
         print msg_success ;;
         ret (PyInt 0)
       else if str_in "S6" (stdout result) then
         print msg_partial ;;
         ret (PyInt 0)
       else
         print msg_failure ;;
         ret (PyInt 1))
      (fun e =>
         match e with
         | TimeoutExpired _ _ _ =>
             Some (print msg_timeout ;; ret (PyInt 2))
         | FileNotFoundError _ =>
             Some (print msg_no_qemu ;; ret (PyInt 1))
         | OtherError _ => None
         end).

(** One run of the script from a fresh machine. *)
Definition run (w : env) (d : disk) : state * completion py_value :=
  main w (boot d).

(** [sys.exit(main())] *)
Definition exit_status (w : env) (d : disk) : Z :=
  exit_status_sys_exit_main (snd (run w d)).

(** The class a report line announces. *)
Definition report_of_line (l : string) : option Classification :=
  if String.eqb l msg_success then Some Success
  else if String.eqb l msg_partial then Some PartialSuccess
  else if String.eqb l msg_failure then Some Failure
  else if String.eqb l msg_timeout then Some Timeout
  else if String.eqb l msg_no_qemu then Some ToolMissing
  else if String.eqb l msg_not_found then Some ArtifactNotFound
  else None.

(** The class a run reports: the one its last printed line announces. *)
Definition verdict (w : env) (d : disk) : option Classification :=
  report_of_line (last (printed (events (fst (run w d)))) "").

(** What the inspection step and the launch of the run from disk [d]
    did: [inl e] when [subprocess.run] raised [e], [inr r] when the child
    completed with [r]. *)
Definition inspected (w : env) (d : disk) : exn + CompletedProcess :=
  fst (spawn w objdump_cmd None d).

Definition launched (w : env) (d : disk) : exn + CompletedProcess :=
  fst (spawn w cmd (Some 15) (snd (spawn w objdump_cmd None d))).

(** The events of a run up to the inspection step, up to the launch, and
    of a launch that completed with [r], as [main] produces them. *)
Definition inspect_prelude : list event :=
  [ EPrint ("Testing x86_64 kernel: " ++ kernel_path);
    EPrint "Creating simple test with QEMU multiboot..." ].

Definition launch_prelude (inspected : CompletedProcess) : list event :=
  inspect_prelude ++
  [ EExec objdump_cmd None;
    EPrint "Kernel sections:";
    EPrint (stdout inspected);
    EPrint ("Running: " ++ join " " cmd) ].

Definition launch_report (r : CompletedProcess) : list event :=
  [ EExec cmd (Some 15);
    EPrint "QEMU stdout:";
    EPrint (stdout r);
    EPrint "QEMU stderr:";
    EPrint (stderr r);
    EPrint ("QEMU exit code: " ++ str_of_int (returncode r)) ].

End TestX86Kernel.

(** ** scripts/build-disk-image.py *)

Module BuildDiskImage.

Definition cmd : list string :=
  [ "qemu-system-x86_64";
    "-kernel"; kernel_path;
    "-serial"; "stdio";
    "-display"; "none";
    "-no-reboot";
    "-no-shutdown" ].

Definition msg_not_found : string :=
  "Kernel binary not found at: " ++ kernel_path.
Definition msg_timeout : string :=
  "QEMU timed out after 30 seconds - this might be normal for a looping kernel".
Definition msg_no_qemu : string :=
  "QEMU not found. Please install qemu-system-x86_64".

(** [main()], lines 12-49.  The [try] statement either returns from
    [main] ([Some v]) or falls through to the [return 0] after it
    ([None]). *)
Definition main : Py py_value :=
  present <- exists_ kernel_path ;;
  if negb present then
    print msg_not_found ;;
    ret (PyInt 1)
  else
    print ("Creating simple disk image for kernel: " ++ kernel_path) ;;
    print "Testing x86_64 kernel boot with QEMU..." ;;
    print ("Running: " ++ join " " cmd) ;;
    returned <-
      try_except
        (result <- subprocess_run cmd (Some 30) ;;
         print "QEMU stdout:" ;;
         print (stdout result) ;;
         print "QEMU stderr:" ;;
         print (stderr result) ;;
         print ("QEMU exit code: " ++ str_of_int (returncode result)) ;;
         ret None)
        (fun e =>
           match e with
           | TimeoutExpired _ _ _ =>
               Some (print msg_timeout ;; ret None)
           | FileNotFoundError _ =>
               Some (print msg_no_qemu ;; ret (Some (PyInt 1)))
           | OtherError _ => None
           end) ;;
    match returned with
    | Some v => ret v
    | None => ret (PyInt 0)
    end.

Definition run (w : env) (d : disk) : state * completion py_value :=
  main w (boot d).

(** [sys.exit(main())] *)
Definition exit_status (w : env) (d : disk) : Z :=
  exit_status_sys_exit_main (snd (run w d)).

(** What the launch of the run from disk [d] did. *)
Definition launched (w : env) (d : disk) : exn + CompletedProcess :=
  fst (spawn w cmd (Some 30) d).

(** The events of a run up to the launch, and of a launch that completed
    with [r], as [main] produces them. *)
Definition launch_prelude : list event :=
  [ EPrint ("Creating simple disk image for kernel: " ++ kernel_path);
    EPrint "Testing x86_64 kernel boot with QEMU...";
    EPrint ("Running: " ++ join " " cmd) ].

Definition launch_report (r : CompletedProcess) : list event :=
  [ EExec cmd (Some 30);
    EPrint "QEMU stdout:";
    EPrint (stdout r);
    EPrint "QEMU stderr:";
    EPrint (stderr r);
    EPrint ("QEMU exit code: " ++ str_of_int (returncode r)) ].

(** This script announces three classes only; a launch that completed is
    reported by its output and exit code, without a class. *)
Definition report_of_line (l : string) : option Classification :=
  if String.eqb l msg_timeout then Some Timeout
  else if String.eqb l msg_no_qemu then Some ToolMissing
  else if String.eqb l msg_not_found then Some ArtifactNotFound
  else None.

Definition verdict (w : env) (d : disk) : option Classification :=
  report_of_line (last (printed (events (fst (run w d)))) "").

End BuildDiskImage.

(** ** create-uefi-image.py *)

Module CreateUefiImage.

Definition output_image : string := "veridian-uefi.img".

Definition dq : string := String (ascii_of_nat 34) "".

(** The text handed to [python3 -c], lines 42-59. *)
Definition shim_source : string :=
  join newline
    [ "";
      "import bootloader";
      "import sys";
      "";
      "# Try to create UEFI image only";
      "kernel_path = sys.argv[1]";
      "output_path = sys.argv[2]";
      "";
      "# This should work since UEFI components compile successfully";
      "try:";
      "    disk_image = bootloader.create_disk_images(kernel_path, uefi=True, bios=False)";
      "    with open(output_path, 'wb') as f:";
      "        f.write(disk_image.uefi)";
      "    print(f" ++ dq ++ "UEFI image created: {output_path}" ++ dq ++ ")";
      "except Exception as e:";
      "    print(f" ++ dq ++ "Error: {e}" ++ dq ++ ")";
      "    sys.exit(1)";
      "            " ].

Definition cmd : list string :=
  [ "python3"; "-c"; shim_source; kernel_path; output_image ].

(** *** The child: the text above, run by [python3 -c] *)

(** The object [create_disk_images] returns, as the child uses it:
    reading its [uefi] field raises (the field is missing), or gives
    [None] (no UEFI image was produced) or the bytes of the image. *)
Record disk_images : Type := mkDiskImages {
  uefi : string + option (list Byte.byte)
}.

(** The external image-construction library as the child meets it:
    [import bootloader] works or fails with a traceback, and
    [create_disk_images(kernel, uefi=True, bios=False)] returns an object
    or raises an exception whose text is given. *)
Record bootloader_module : Type := mkBootloader {
  import_error : option string;
  create_disk_images : string -> string + disk_images
}.

(** [open(path, 'wb')] truncates or creates the file. *)
Definition open_wb (path : string) : Py unit :=
  fun _ st =>
    (mkState (events st)
       (fun p => if String.eqb p path then Some [] else files st p),
     Normal tt).

(** [f.write(data)] on a binary file just opened: bytes are written,
    [None] is refused with a [TypeError] and nothing is written. *)
Definition write (path : string) (data : option (list Byte.byte)) : Py unit :=
  match data with
  | None =>
      raise (OtherError "a bytes-like object is required, not 'NoneType'")
  | Some bytes =>
      fun _ st =>
        (mkState (events st)
           (fun p => if String.eqb p path then Some bytes else files st p),
         Normal tt)
  end.

(** [import bootloader] *)
Definition import_bootloader (lib : bootloader_module) : Py unit :=
  match import_error lib with
  | Some traceback => raise (OtherError traceback)
  | None => ret tt
  end.

(** [bootloader.create_disk_images(kernel_path, uefi=True, bios=False)] *)
Definition call_create_disk_images (lib : bootloader_module) (k : string)
  : Py disk_images :=
  match create_disk_images lib k with
  | inl msg => raise (OtherError msg)
  | inr disk_image => ret disk_image
  end.

(** [disk_image.uefi] *)
Definition read_uefi (disk_image : disk_images)
  : Py (option (list Byte.byte)) :=
  match uefi disk_image with
  | inl msg => raise (OtherError msg)
  | inr data => ret data
  end.

(** The child's program; [argv1] and [argv2] are [sys.argv[1]] and
    [sys.argv[2]].  Inside the [with] block the file is already open
    (and truncated) when [disk_image.uefi] is read and written; an
    exception there closes the file and goes to the handler. *)
Definition shim_main (lib : bootloader_module) (argv1 argv2 : string)
  : Py py_value :=
  import_bootloader lib ;;
  let kernel_path := argv1 in
  let output_path := argv2 in
  try_except
    (disk_image <- call_create_disk_images lib kernel_path ;;
     open_wb output_path ;;
     data <- read_uefi disk_image ;;
     write output_path data ;;
     print ("UEFI image created: " ++ output_path) ;;
     ret PyNone)
    (fun e =>
       Some (print ("Error: " ++ exn_str e) ;; sys_exit 1)).

(** A child whose program is [prog], as [subprocess.run] with
    [capture_output=True] sees it: what the child printed is its captured
    stdout, an exception nobody caught leaves its text on the captured
    stderr, and the disk is as the child left it.  The child starts no
    process of its own, so its environment is immaterial. *)
Definition child (prog : Py py_value) (d : disk)
  : (exn + CompletedProcess) * disk :=
  let w := mkEnv (fun _ => false)
                 (fun _ _ d' => (inl (OtherError ""), d')) in
  match prog w (boot d) with
  | (st, c) =>
      (inr (mkCompleted
              (transcript (printed (events st)))
              match c with
              | Abrupt (Raised e) => exn_str e
              | _ => ""
              end
              (exit_status_main c)),
       files st)
  end.

(** [python3 -c shim_source kernel_path output_image] on a machine where
    the library behaves as [lib]. *)
Definition python3_shim (lib : bootloader_module) (d : disk)
  : (exn + CompletedProcess) * disk :=
  child (shim_main lib kernel_path output_image) d.

(** *** The parent *)

(** [run_command(cmd, check)], lines 14-22. *)
Definition run_command (cmd : list string) (check : bool)
  : Py CompletedProcess :=
  print ("Running: " ++ join " " cmd) ;;
  result <- subprocess_run cmd None ;;
  if check && negb (returncode result =? 0) then
    print ("Error running " ++ hd "" cmd ++ ":") ;;
    print (stderr result) ;;
    sys_exit 1
  else
    ret result.

Definition msg_kernel_missing : string :=
  "Error: Kernel not found at " ++ kernel_path.
Definition msg_remediation : string :=
  "Please build the kernel first with: cargo build --target x86_64-unknown-none -p veridian-kernel".
Definition msg_created : string := "UEFI image created: " ++ output_image.
Definition msg_fallback : string :=
  "Falling back to manual UEFI image creation...".
Definition alternatives : list string :=
  [ "Alternative approaches:";
    "1. Use GRUB with multiboot2 (ISO creation)";
    "2. Wait for bootloader 0.11 BIOS fix";
    "3. Downgrade to bootloader 0.9 temporarily" ].

(** [main()], lines 24-93.  The [try] statement either returns from
    [main] ([Some v]) or falls through to the fallback ([None]). *)
Definition main : Py py_value :=
  print "Creating UEFI-bootable disk image for VeridianOS x86_64..." ;;
  present <- exists_ kernel_path ;;
  (if negb present then
     print msg_kernel_missing ;;
     print msg_remediation ;;
     sys_exit 1
   else ret tt) ;;
  returned <-
    try_except
      (result <- run_command cmd false ;;
       if returncode result =? 0 then
         print msg_created ;;
         print "" ;;
         print "To test with QEMU (UEFI):" ;;
         print ("  qemu-system-x86_64 -drive format=raw,file=" ++ output_image
                ++ " -bios /usr/share/OVMF/OVMF_CODE.fd -serial stdio -display none") ;;
         ret (Some PyNone)
       else ret None)
      (fun e =>
         Some (print ("Bootloader approach failed: " ++ exn_str e) ;;
               ret None)) ;;
  match returned with
  | Some v => ret v
  | None =>
      print msg_fallback ;;
      emit EMkTemp ;;
      emit (EMkDirs "EFI/BOOT") ;;
      print "Note: Manual UEFI creation requires a proper UEFI bootloader" ;;
      print "The kernel needs to be linked as a UEFI application, not raw kernel" ;;
      print "" ;;
      print "Alternative approaches:" ;;
      print "1. Use GRUB with multiboot2 (ISO creation)" ;;
      print "2. Wait for bootloader 0.11 BIOS fix" ;;
      print "3. Downgrade to bootloader 0.9 temporarily" ;;
      emit ERmTemp ;;
      ret (PyBool false)
  end.

Definition run (w : env) (d : disk) : state * completion py_value :=
  main w (boot d).

(** [main()] at the top level: the value returned is not passed on. *)
Definition exit_status (w : env) (d : disk) : Z :=
  exit_status_main (snd (run w d)).

(** The build command the operator is told to run. *)
Definition remediation_command : string :=
  "cargo build --target x86_64-unknown-none -p veridian-kernel".

(** What starting the child of the run from disk [d] did. *)
Definition built (w : env) (d : disk) : exn + CompletedProcess :=
  fst (spawn w cmd None d).

(** The events of a run up to the child's end, of the success branch and
    of the fallback, as [main] produces them. *)
Definition build_prelude : list event :=
  [ EPrint "Creating UEFI-bootable disk image for VeridianOS x86_64...";
    EPrint ("Running: " ++ join " " cmd);
    EExec cmd None ].

Definition success_events : list event :=
  [ EPrint msg_created;
    EPrint "";
    EPrint "To test with QEMU (UEFI):";
    EPrint ("  qemu-system-x86_64 -drive format=raw,file=" ++ output_image
            ++ " -bios /usr/share/OVMF/OVMF_CODE.fd -serial stdio -display none") ].

Definition fallback_events : list event :=
  [ EPrint msg_fallback;
    EMkTemp;
    EMkDirs "EFI/BOOT";
    EPrint "Note: Manual UEFI creation requires a proper UEFI bootloader";
    EPrint "The kernel needs to be linked as a UEFI application, not raw kernel";
    EPrint "" ] ++
  map EPrint alternatives ++
  [ ERmTemp ].

End CreateUefiImage.

Module T := TestX86Kernel.
Module B := BuildDiskImage.
Module U := CreateUefiImage.

(** ** Machines for examples *)

(** The kernel is there or not, [objdump] behaves as [inspect] and every
    other command as [launch]; no child touches the disk. *)
Definition env_of (kernel : bool) (inspect launch : exn + CompletedProcess)
  : env :=
  mkEnv (fun p => String.eqb p kernel_path && kernel)
        (fun c _ d =>
           (if String.eqb (hd "" c) "objdump" then inspect else launch, d)).

Definition empty_disk : disk := fun _ => None.

(** A machine for [create-uefi-image.py]: the kernel is there or not, and
    the child is [python3 -c] running the shim against [lib]. *)
Definition uefi_env_of (kernel : bool)
    (lib : CreateUefiImage.bootloader_module) : env :=
  mkEnv (fun p => String.eqb p kernel_path && kernel)
        (fun _ _ d => CreateUefiImage.python3_shim lib d).

Module Examples.

Definition sections : exn + CompletedProcess :=
  inr (mkCompleted "veridian-kernel:     file format elf64-x86-64" "" 0).

Definition no_such_file (prog : string) : exn :=
  FileNotFoundError ("[Errno 2] No such file or directory: '" ++ prog ++ "'").

(** The kernel prints both markers and QEMU exits. *)
Definition booted : env :=
  env_of true sections (inr (mkCompleted "[S6] Stage 6 BOOTOK" "" 0)).

(** The same captured stdout, with another stderr, another exit code and
    another section dump. *)
Definition booted_noisy : env :=
  env_of true
    (inr (mkCompleted "" "objdump: file truncated" 1))
    (inr (mkCompleted "[S6] Stage 6 BOOTOK" "qemu: warning: TCG" 33)).

(** The kernel reaches stage 6 only. *)
Definition stage6 : env :=
  env_of true sections (inr (mkCompleted "[S6] Stage 6" "" 0)).

(** The kernel prints nothing. *)
Definition silent : env :=
  env_of true sections (inr (mkCompleted "" "" 1)).

(** The kernel prints both markers and then idles until the deadline. *)
Definition looping : env :=
  env_of true sections
    (inl (TimeoutExpired "Command timed out" "[S6] Stage 6 BOOTOK" "")).

(** QEMU is not installed. *)
Definition no_qemu : env :=
  env_of true sections (inl (no_such_file "qemu-system-x86_64")).

(** objdump is not installed; the kernel would boot. *)
Definition no_objdump : env :=
  env_of true (inl (no_such_file "objdump"))
    (inr (mkCompleted "[S6] Stage 6 BOOTOK" "" 0)).

(** The kernel has not been built. *)
Definition no_kernel : env :=
  env_of false sections (inr (mkCompleted "[S6] Stage 6 BOOTOK" "" 0)).

(** The library builds a four-byte image. *)
Definition good_lib : CreateUefiImage.bootloader_module :=
  CreateUefiImage.mkBootloader None
    (fun _ => inr (CreateUefiImage.mkDiskImages
                     (inr (Some [Byte.x4d; Byte.x5a; Byte.x90; Byte.x00])))).

(** The library raises. *)
Definition failing_lib : CreateUefiImage.bootloader_module :=
  CreateUefiImage.mkBootloader None
    (fun _ => inl "kernel is not a valid UEFI application").


(** The library is not installed. *)
Definition absent_lib : CreateUefiImage.bootloader_module :=
  CreateUefiImage.mkBootloader
    (Some "ModuleNotFoundError: No module named 'bootloader'")
    (fun _ => inl "").


End Examples.

(** ** The specification's exit-code table

    [0] success or partial success, [1] hard failure or tool missing,
    [2] timeout. *)
Definition spec_exit_code (c : Classification) : Z :=
  match c with
  | Success | PartialSuccess => 0
  | Failure | ToolMissing | ArtifactNotFound => 1
  | Timeout => 2
  end.

(** The exit status of [build-disk-image.py] by class: a timeout is not
    told apart from a launch that completed. *)
Definition build_exit_code (c : Classification) : Z :=
  match c with
  | Timeout => 0
  | other => spec_exit_code other
  end.





(** A run did nothing but print. *)
Definition only_prints (t : list event) : Prop :=
  t = map EPrint (printed t).

(** [line] is among the lines of [t]. *)
Definition line_printed (line : string) (t : list event) : bool :=
  existsb (String.eqb line) (printed t).

(** The operator's transcript of a run shows [text]. *)
Definition shown (text : string) (st : state) : Prop :=
  Occurs text (transcript (printed (events st))).

(** * Properties *)

(** ** Substring search *)

Section Containment.

Lemma append_assoc (a b c : string) : (a ++ b) ++ c = a ++ (b ++ c).
Proof. induction a as [|x a IH]; simpl; [reflexivity | now rewrite IH]. Qed.

Lemma startswith_iff (p s : string) :
  startswith p s = true <-> exists rest, s = p ++ rest.
Proof.
  revert s; induction p as [|a p IH]; intros s; simpl.
  - split; [intros _; now exists s | reflexivity].
  - destruct s as [|b s].
    + split; [discriminate | intros [rest H]; discriminate].
    + rewrite andb_true_iff, Ascii.eqb_eq, IH. split.
      * intros [-> [rest ->]]. now exists rest.
      * intros [rest H]. injection H as -> ->. split; [reflexivity | now exists rest].
Qed.

Lemma str_in_here (needle s : string) :
  startswith needle s = true -> str_in needle s = true.
Proof. intros H. destruct s; simpl; rewrite H; reflexivity. Qed.

Lemma str_in_later (needle : string) (a : ascii) (s : string) :
  str_in needle s = true -> str_in needle (String a s) = true.
Proof. intros H. simpl. rewrite H. apply orb_true_r. Qed.

Lemma str_in_app (needle before after : string) :
  str_in needle (before ++ needle ++ after) = true.
Proof.
  induction before as [|a before IH]; simpl String.append.
  - apply str_in_here, startswith_iff. now exists after.
  - now apply str_in_later.
Qed.

Lemma str_in_occurs (needle s : string) :
  str_in needle s = true -> Occurs needle s.
Proof.
  induction s as [|a s IH]; simpl; rewrite orb_true_iff.
  - intros [H | H]; [| discriminate].
    apply startswith_iff in H as [rest H]. now exists "", rest.
  - intros [H | H].
    + apply startswith_iff in H as [rest H]. now exists "", rest.
    + destruct (IH H) as (before & after & ->).
      now exists (String a before), after.
Qed.

(** Python's [needle in s] decides whether [needle] occurs in [s]. *)
Lemma str_in_iff (needle s : string) :
  str_in needle s = true <-> Occurs needle s.
Proof.
  split; [apply str_in_occurs |].
  intros (before & after & ->). apply str_in_app.
Qed.

Lemma str_in_false_iff (needle s : string) :
  str_in needle s = false <-> ~ Occurs needle s.
Proof.
  rewrite <- str_in_iff. destruct (str_in needle s); split; congruence.
Qed.

End Containment.

(** ** Running a child *)

Lemma subprocess_run_completed w cmd t ev dk r :
  fst (spawn w cmd t dk) = inr r ->
  subprocess_run cmd t w (mkState ev dk) =
    (mkState (ev ++ [EExec cmd t]) (snd (spawn w cmd t dk)), Normal r).
Proof.
  intros H. unfold subprocess_run. cbn [events files].
  destruct (spawn w cmd t dk) as [[e | r'] d']; simpl in *; congruence.
Qed.

Lemma subprocess_run_raised w cmd t ev dk e :
  fst (spawn w cmd t dk) = inl e ->
  subprocess_run cmd t w (mkState ev dk) =
    (mkState (ev ++ [EExec cmd t]) (snd (spawn w cmd t dk)),
     Abrupt (Raised e)).
Proof.
  intros H. unfold subprocess_run. cbn [events files].
  destruct (spawn w cmd t dk) as [[e' | r'] d']; simpl in *; congruence.
Qed.

Ltac py_run :=
  cbv beta iota delta
    [bind ret print emit raise sys_exit exists_ try_except boot
     events files fst snd].

(** ** What a run printed *)

Lemma printed_app (t1 t2 : list event) :
  printed (t1 ++ t2) = (printed t1 ++ printed t2)%list.
Proof.
  induction t1 as [|e t1 IH]; [reflexivity |].
  destruct e; simpl; now rewrite IH.
Qed.

Lemma started_app (t1 t2 : list event) :
  started (t1 ++ t2) = (started t1 ++ started t2)%list.
Proof.
  induction t1 as [|e t1 IH]; [reflexivity |].
  destruct e; simpl; now rewrite IH.
Qed.

Lemma last_snoc {A} (l : list A) (x dflt : A) : last (l ++ [x]) dflt = x.
Proof.
  induction l as [|a l IH]; [reflexivity |].
  simpl. rewrite IH. destruct (l ++ [x])%list eqn:E; [| reflexivity].
  now destruct l.
Qed.

Lemma last_printed_app (t1 t2 : list event) (l : string) :
  last (printed (t1 ++ t2 ++ [EPrint l])) "" = l.
Proof. rewrite app_assoc, printed_app. simpl. apply last_snoc. Qed.

Lemma transcript_app (l1 l2 : list string) :
  transcript (l1 ++ l2) = transcript l1 ++ transcript l2.
Proof.
  induction l1 as [|x l1 IH]; [reflexivity |].
  simpl. rewrite IH. now rewrite !append_assoc.
Qed.

(** A printed line is shown in the transcript. *)
Lemma printed_line_shown (l : string) (st : state) :
  In l (printed (events st)) -> shown l st.
Proof.
  unfold shown. intros H. apply in_split in H as (l1 & l2 & ->).
  exists (transcript l1), (newline ++ transcript l2).
  rewrite transcript_app. reflexivity.
Qed.

(** ** test-x86-kernel.py, run symbolically *)

Section TestX86KernelRuns.

Import TestX86Kernel.

Variable w : env.
Variable d : disk.

Lemma test_run_no_kernel :
  path_exists w kernel_path = false ->
  run w d = (mkState [EPrint msg_not_found] d, Normal (PyInt 1)).
Proof.
  intros H. unfold run, main. py_run. rewrite H. reflexivity.
Qed.

Lemma test_run_inspect_raised e :
  path_exists w kernel_path = true ->
  inspected w d = inl e ->
  exists d',
    run w d = (mkState (inspect_prelude ++ [EExec objdump_cmd None]) d',
               Abrupt (Raised e)).
Proof.
  intros H H0. unfold run, main. py_run. rewrite H. cbv beta iota delta [negb].
  rewrite (subprocess_run_raised _ _ _ _ _ _ H0). py_run.
  eexists. reflexivity.
Qed.

Lemma test_run_completed r0 r :
  path_exists w kernel_path = true ->
  inspected w d = inr r0 ->
  launched w d = inr r ->
  exists d',
    run w d =
      (mkState (launch_prelude r0 ++ launch_report r ++
                [EPrint (if str_in "BOOTOK" (stdout r) then msg_success
                         else if str_in "S6" (stdout r) then msg_partial
                         else msg_failure)]) d',
       Normal (PyInt (if str_in "BOOTOK" (stdout r) then 0
                      else if str_in "S6" (stdout r) then 0 else 1))).
Proof.
  intros H H0 H1. unfold run, main. py_run. rewrite H. cbv beta iota delta [negb].
  rewrite (subprocess_run_completed _ _ _ _ _ _ H0). py_run.
  rewrite (subprocess_run_completed _ _ _ _ _ _ H1). py_run.
  destruct (str_in "BOOTOK" (stdout r)); [| destruct (str_in "S6" (stdout r))];
    eexists; reflexivity.
Qed.

Lemma test_run_launch_raised r0 e :
  path_exists w kernel_path = true ->
  inspected w d = inr r0 ->
  launched w d = inl e ->
  exists d',
    run w d =
      match e with
      | TimeoutExpired _ _ _ =>
          (mkState (launch_prelude r0 ++
                    [EExec cmd (Some 15); EPrint msg_timeout]) d',
           Normal (PyInt 2))
      | FileNotFoundError _ =>
          (mkState (launch_prelude r0 ++
                    [EExec cmd (Some 15); EPrint msg_no_qemu]) d',
           Normal (PyInt 1))
      | OtherError _ =>
          (mkState (launch_prelude r0 ++ [EExec cmd (Some 15)]) d',
           Abrupt (Raised e))
      end.
Proof.
  intros H H0 H1. unfold run, main. py_run. rewrite H. cbv beta iota delta [negb].
  rewrite (subprocess_run_completed _ _ _ _ _ _ H0). py_run.
  rewrite (subprocess_run_raised _ _ _ _ _ _ H1). py_run.
  destruct e; eexists; reflexivity.
Qed.

Lemma test_verdict_no_kernel :
  path_exists w kernel_path = false ->
  verdict w d = Some ArtifactNotFound /\ exit_status w d = 1.
Proof.
  intros H. unfold verdict, exit_status.
  rewrite (test_run_no_kernel H). split; reflexivity.
Qed.

Lemma test_verdict_inspect_raised e :
  path_exists w kernel_path = true ->
  inspected w d = inl e ->
  verdict w d = None /\ exit_status w d = 1.
Proof.
  intros H H0. unfold verdict, exit_status.
  destruct (test_run_inspect_raised e H H0) as [d' ->]. split; reflexivity.
Qed.

Lemma test_verdict_completed r0 r :
  path_exists w kernel_path = true ->
  inspected w d = inr r0 ->
  launched w d = inr r ->
  verdict w d =
    Some (if str_in "BOOTOK" (stdout r) then Success
          else if str_in "S6" (stdout r) then PartialSuccess else Failure) /\
  exit_status w d =
    (if str_in "BOOTOK" (stdout r) then 0
     else if str_in "S6" (stdout r) then 0 else 1).
Proof.
  intros H H0 H1. unfold verdict, exit_status.
  destruct (test_run_completed r0 r H H0 H1) as [d' ->].
  cbn [fst snd events]. rewrite last_printed_app.
  destruct (str_in "BOOTOK" (stdout r)); [| destruct (str_in "S6" (stdout r))];
    split; reflexivity.
Qed.

Lemma test_verdict_launch_raised r0 e :
  path_exists w kernel_path = true ->
  inspected w d = inr r0 ->
  launched w d = inl e ->
  match e with
  | TimeoutExpired _ _ _ => verdict w d = Some Timeout /\ exit_status w d = 2
  | FileNotFoundError _ =>
      verdict w d = Some ToolMissing /\ exit_status w d = 1
  | OtherError _ => verdict w d = None /\ exit_status w d = 1
  end.
Proof.
  intros H H0 H1. unfold verdict, exit_status.
  destruct (test_run_launch_raised r0 e H H0 H1) as [d' E].
  destruct e; rewrite E; cbn [fst snd events].
  - rewrite printed_app. cbn [printed]. rewrite last_snoc. split; reflexivity.
  - rewrite printed_app. cbn [printed]. rewrite last_snoc. split; reflexivity.
  - split; [| reflexivity].
    unfold launch_prelude, inspect_prelude. cbn [printed app last].
    reflexivity.
Qed.

(** Every run reports a class, or ends with an exception nobody caught
    and status 1. *)
Lemma test_run_reports_or_raises :
  (exists c, verdict w d = Some c) \/
  (exists e, snd (run w d) = Abrupt (Raised e) /\ exit_status w d = 1).
Proof.
  destruct (path_exists w kernel_path) eqn:K.
  - destruct (inspected w d) as [e | r0] eqn:I.
    + right. exists e. unfold exit_status.
      destruct (test_run_inspect_raised e K I) as [d' ->]. now split.
    + destruct (launched w d) as [e | r] eqn:L.
      * pose proof (test_verdict_launch_raised r0 e K I L) as V.
        destruct (test_run_launch_raised r0 e K I L) as [d' E].
        destruct e; destruct V as [V X].
        -- left. now exists ToolMissing.
        -- left. now exists Timeout.
        -- right. eexists. rewrite E. now split.
      * left. destruct (test_verdict_completed r0 r K I L) as [V _].
        eexists. exact V.
  - left. exists ArtifactNotFound. now apply test_verdict_no_kernel.
Qed.

End TestX86KernelRuns.

(** ** build-disk-image.py, run symbolically *)

Section BuildDiskImageRuns.

Import BuildDiskImage.

Variable w : env.
Variable d : disk.

Lemma build_run_no_kernel :
  path_exists w kernel_path = false ->
  run w d = (mkState [EPrint msg_not_found] d, Normal (PyInt 1)).
Proof.
  intros H. unfold run, main. py_run. rewrite H. reflexivity.
Qed.

Lemma build_run_completed r :
  path_exists w kernel_path = true ->
  launched w d = inr r ->
  exists d',
    run w d = (mkState (launch_prelude ++ launch_report r) d',
               Normal (PyInt 0)).
Proof.
  intros H H0. unfold run, main. py_run. rewrite H. cbv beta iota delta [negb].
  rewrite (subprocess_run_completed _ _ _ _ _ _ H0). py_run.
  eexists. reflexivity.
Qed.

Lemma build_run_launch_raised e :
  path_exists w kernel_path = true ->
  launched w d = inl e ->
  exists d',
    run w d =
      match e with
      | TimeoutExpired _ _ _ =>
          (mkState (launch_prelude ++
                    [EExec cmd (Some 30); EPrint msg_timeout]) d',
           Normal (PyInt 0))
      | FileNotFoundError _ =>
          (mkState (launch_prelude ++
                    [EExec cmd (Some 30); EPrint msg_no_qemu]) d',
           Normal (PyInt 1))
      | OtherError _ =>
          (mkState (launch_prelude ++ [EExec cmd (Some 30)]) d',
           Abrupt (Raised e))
      end.
Proof.
  intros H H0. unfold run, main. py_run. rewrite H. cbv beta iota delta [negb].
  rewrite (subprocess_run_raised _ _ _ _ _ _ H0). py_run.
  destruct e; eexists; reflexivity.
Qed.

Lemma build_verdict_no_kernel :
  path_exists w kernel_path = false ->
  verdict w d = Some ArtifactNotFound /\ exit_status w d = 1.
Proof.
  intros H. unfold verdict, exit_status.
  rewrite (build_run_no_kernel H). split; reflexivity.
Qed.

(** A launch that completed is given no class, and the script exits
    with 0 whatever the child printed. *)
Lemma build_verdict_completed r :
  path_exists w kernel_path = true ->
  launched w d = inr r ->
  verdict w d = None /\ exit_status w d = 0.
Proof.
  intros H H0. unfold verdict, exit_status.
  destruct (build_run_completed r H H0) as [d' ->].
  cbn [fst snd events]. split; [| reflexivity].
  unfold launch_prelude, launch_report. cbn [printed app last].
  reflexivity.
Qed.

Lemma build_verdict_launch_raised e :
  path_exists w kernel_path = true ->
  launched w d = inl e ->
  match e with
  | TimeoutExpired _ _ _ => verdict w d = Some Timeout /\ exit_status w d = 0
  | FileNotFoundError _ =>
      verdict w d = Some ToolMissing /\ exit_status w d = 1
  | OtherError _ => verdict w d = None /\ exit_status w d = 1
  end.
Proof.
  intros H H0. unfold verdict, exit_status.
  destruct (build_run_launch_raised e H H0) as [d' E].
  destruct e; rewrite E; cbn [fst snd events]; split; reflexivity.
Qed.

End BuildDiskImageRuns.

(** ** create-uefi-image.py, run symbolically *)

Section CreateUefiImageRuns.

Import CreateUefiImage.

Variable w : env.
Variable d : disk.

Lemma uefi_run_no_kernel :
  path_exists w kernel_path = false ->
  run w d =
    (mkState [ EPrint "Creating UEFI-bootable disk image for VeridianOS x86_64...";
               EPrint msg_kernel_missing;
               EPrint msg_remediation ] d,
     Abrupt (SystemExit 1)).
Proof.
  intros H. unfold run, main. py_run. rewrite H. reflexivity.
Qed.

Lemma uefi_run_built r :
  path_exists w kernel_path = true ->
  built w d = inr r ->
  returncode r = 0 ->
  run w d =
    (mkState (build_prelude ++ success_events) (snd (spawn w cmd None d)),
     Normal PyNone).
Proof.
  intros H H0 H1. unfold run, main, run_command. py_run. rewrite H.
  cbv beta iota delta [negb andb].
  rewrite (subprocess_run_completed _ _ _ _ _ _ H0). py_run.
  rewrite H1. reflexivity.
Qed.

Lemma uefi_run_child_failed r :
  path_exists w kernel_path = true ->
  built w d = inr r ->
  returncode r <> 0 ->
  run w d =
    (mkState (build_prelude ++ fallback_events) (snd (spawn w cmd None d)),
     Normal (PyBool false)).
Proof.
  intros H H0 H1. unfold run, main, run_command. py_run. rewrite H.
  cbv beta iota delta [negb andb].
  rewrite (subprocess_run_completed _ _ _ _ _ _ H0). py_run.
  apply Z.eqb_neq in H1. rewrite H1. reflexivity.
Qed.

Lemma uefi_run_child_raised e :
  path_exists w kernel_path = true ->
  built w d = inl e ->
  run w d =
    (mkState (build_prelude ++
              [EPrint ("Bootloader approach failed: " ++ exn_str e)] ++
              fallback_events) (snd (spawn w cmd None d)),
     Normal (PyBool false)).
Proof.
  intros H H0. unfold run, main, run_command. py_run. rewrite H.
  cbv beta iota delta [negb andb].
  rewrite (subprocess_run_raised _ _ _ _ _ _ H0). py_run.
  reflexivity.
Qed.

(** The fallback is taken exactly when the kernel is there and the child
    could not be started or ended with a status other than 0. *)
Lemma uefi_fallback_taken :
  path_exists w kernel_path = true ->
  match built w d with
  | inl _ => True
  | inr r => returncode r <> 0
  end ->
  line_printed msg_fallback (events (fst (run w d))) = true.
Proof.
  intros K H. destruct (built w d) as [e | r] eqn:R.
  - rewrite (uefi_run_child_raised e K R). cbn [fst events].
    unfold line_printed. rewrite !printed_app, !existsb_app.
    replace (existsb (String.eqb msg_fallback) (printed fallback_events))
      with true by (vm_compute; reflexivity).
    now rewrite !orb_true_r.
  - rewrite (uefi_run_child_failed r K R H). vm_compute. reflexivity.
Qed.

(** The top level of the script drops what [main] returns: a run that
    built the image and a run that fell back both end with status 0. *)
Lemma uefi_exit_status_after_launch :
  path_exists w kernel_path = true -> exit_status w d = 0.
Proof.
  intros K. unfold exit_status.
  destruct (built w d) as [e | r] eqn:R.
  - now rewrite (uefi_run_child_raised e K R).
  - destruct (Z.eq_dec (returncode r) 0) as [Z0 | Z0].
    + now rewrite (uefi_run_built r K R Z0).
    + now rewrite (uefi_run_child_failed r K R Z0).
Qed.

End CreateUefiImageRuns.

(** * The claims *)

Section BootVerifier.

Import TestX86Kernel.

(** C1: for the captured stdout of a launch that completed, the verifier
    classifies by ordered substring containment.  If "BOOTOK" occurs
    anywhere in it the run is reported Success, whatever surrounds the
    marker and whether or not "S6" occurs too; otherwise, if "S6" occurs
    anywhere, PartialSuccess; otherwise Failure. *)
Theorem C1_marker_classification (w : env) (d : disk)
    (r0 r : CompletedProcess) :
  path_exists w kernel_path = true ->
  inspected w d = inr r0 ->
  launched w d = inr r ->
  (Occurs "BOOTOK" (stdout r) -> verdict w d = Some Success) /\
  (~ Occurs "BOOTOK" (stdout r) -> Occurs "S6" (stdout r) ->
   verdict w d = Some PartialSuccess) /\
  (~ Occurs "BOOTOK" (stdout r) -> ~ Occurs "S6" (stdout r) ->
   verdict w d = Some Failure).
Proof.
  intros H H0 H1.
  destruct (test_verdict_completed w d r0 r H H0 H1) as [V _].
  rewrite V. repeat split.
  - intros B. apply str_in_iff in B. now rewrite B.
  - intros B S. apply str_in_false_iff in B. apply str_in_iff in S.
    now rewrite B, S.
  - intros B S. apply str_in_false_iff in B. apply str_in_false_iff in S.
    now rewrite B, S.
Qed.

Lemma C1_marker_classification_witness :
  verdict Examples.booted empty_disk = Some Success /\
  verdict Examples.stage6 empty_disk = Some PartialSuccess /\
  verdict Examples.silent empty_disk = Some Failure.
Proof.
  split; [| split].
  - refine (proj1 (C1_marker_classification Examples.booted empty_disk
                     _ _ eq_refl eq_refl eq_refl) _).
    exists "[S6] Stage 6 ", "". reflexivity.
  - refine (proj1 (proj2 (C1_marker_classification Examples.stage6 empty_disk
                            _ _ eq_refl eq_refl eq_refl)) _ _).
    + apply str_in_false_iff. reflexivity.
    + exists "[", "] Stage 6". reflexivity.
  - refine (proj2 (proj2 (C1_marker_classification Examples.silent empty_disk
                            _ _ eq_refl eq_refl eq_refl)) _ _);
      apply str_in_false_iff; reflexivity.
Defined.

(** C10: the classification is a function of the captured stdout.  Two
    launches that completed with the same stdout get the same class and
    the same exit status, whatever their stderr, the child's exit code,
    the section dump or the disk were. *)
Theorem C10_classification_deterministic (w1 w2 : env) (d1 d2 : disk)
    (a1 a2 r1 r2 : CompletedProcess) :
  path_exists w1 kernel_path = true ->
  path_exists w2 kernel_path = true ->
  inspected w1 d1 = inr a1 ->
  inspected w2 d2 = inr a2 ->
  launched w1 d1 = inr r1 ->
  launched w2 d2 = inr r2 ->
  stdout r1 = stdout r2 ->
  verdict w1 d1 = verdict w2 d2 /\ exit_status w1 d1 = exit_status w2 d2.
Proof.
  intros K1 K2 I1 I2 L1 L2 E.
  destruct (test_verdict_completed w1 d1 a1 r1 K1 I1 L1) as [V1 X1].
  destruct (test_verdict_completed w2 d2 a2 r2 K2 I2 L2) as [V2 X2].
  rewrite V1, V2, X1, X2, E. split; reflexivity.
Qed.

Lemma C10_classification_deterministic_witness :
  verdict Examples.booted empty_disk = verdict Examples.booted_noisy empty_disk /\
  exit_status Examples.booted empty_disk =
  exit_status Examples.booted_noisy empty_disk.
Proof.
  exact (C10_classification_deterministic
           Examples.booted Examples.booted_noisy empty_disk empty_disk
           _ _ _ _ eq_refl eq_refl eq_refl eq_refl eq_refl eq_refl eq_refl).
Defined.

End BootVerifier.

(** ** Launch outcomes *)

(** C3: when the child is still running at the deadline the run is
    reported Timeout, never Failure, whatever was captured before the
    deadline; no marker is looked for, and the events of the run do not
    depend on the captured output.  Both launching scripts. *)
Theorem C3_timeout_short_circuits (w : env) (d : disk)
    (str out err : string) :
  path_exists w kernel_path = true ->
  (forall r0,
     T.inspected w d = inr r0 ->
     T.launched w d = inl (TimeoutExpired str out err) ->
     T.verdict w d = Some Timeout /\
     T.verdict w d <> Some Failure /\
     events (fst (T.run w d)) =
       (T.launch_prelude r0 ++
        [EExec T.cmd (Some 15); EPrint T.msg_timeout])%list) /\
  (B.launched w d = inl (TimeoutExpired str out err) ->
   B.verdict w d = Some Timeout /\
   B.verdict w d <> Some Failure /\
   events (fst (B.run w d)) =
     (B.launch_prelude ++ [EExec B.cmd (Some 30); EPrint B.msg_timeout])%list).
Proof.
  intros K. split.
  - intros r0 I L.
    destruct (test_verdict_launch_raised w d r0 _ K I L) as [V _].
    destruct (test_run_launch_raised w d r0 _ K I L) as [d' E].
    rewrite V, E. repeat split. discriminate.
  - intros L.
    destruct (build_verdict_launch_raised w d _ K L) as [V _].
    destruct (build_run_launch_raised w d _ K L) as [d' E].
    rewrite V, E. repeat split. discriminate.
Qed.

Lemma C3_timeout_short_circuits_witness :
  T.verdict Examples.looping empty_disk = Some Timeout /\
  B.verdict Examples.looping empty_disk = Some Timeout.
Proof.
  pose proof (C3_timeout_short_circuits Examples.looping empty_disk
                "Command timed out" "[S6] Stage 6 BOOTOK" "" eq_refl)
    as [HT HB].
  split.
  - exact (proj1 (HT _ eq_refl eq_refl)).
  - exact (proj1 (HB eq_refl)).
Defined.

(** C5: when the hypervisor binary is not installed, [main] returns 1
    after reporting ToolMissing; the [FileNotFoundError] does not leave
    [main].  Both launching scripts. *)
Theorem C5_missing_hypervisor_is_reported (w : env) (d : disk)
    (str : string) :
  path_exists w kernel_path = true ->
  (forall r0,
     T.inspected w d = inr r0 ->
     T.launched w d = inl (FileNotFoundError str) ->
     snd (T.run w d) = Normal (PyInt 1) /\
     T.verdict w d = Some ToolMissing /\
     T.exit_status w d = 1) /\
  (B.launched w d = inl (FileNotFoundError str) ->
   snd (B.run w d) = Normal (PyInt 1) /\
   B.verdict w d = Some ToolMissing /\
   B.exit_status w d = 1).
Proof.
  intros K. split.
  - intros r0 I L.
    destruct (test_verdict_launch_raised w d r0 _ K I L) as [V X].
    destruct (test_run_launch_raised w d r0 _ K I L) as [d' E].
    rewrite V, X, E. repeat split.
  - intros L.
    destruct (build_verdict_launch_raised w d _ K L) as [V X].
    destruct (build_run_launch_raised w d _ K L) as [d' E].
    rewrite V, X, E. repeat split.
Qed.

Lemma C5_missing_hypervisor_is_reported_witness :
  T.exit_status Examples.no_qemu empty_disk = 1 /\
  B.exit_status Examples.no_qemu empty_disk = 1.
Proof.
  pose proof (C5_missing_hypervisor_is_reported Examples.no_qemu empty_disk
                "[Errno 2] No such file or directory: 'qemu-system-x86_64'"
                eq_refl) as [HT HB].
  split.
  - exact (proj2 (proj2 (HT _ eq_refl eq_refl))).
  - exact (proj2 (proj2 (HB eq_refl))).
Defined.

(** C2, as the scripts have it: [test-x86-kernel.py] exits with the code
    the table gives for the class it reports (0 for Success and
    PartialSuccess, 1 for Failure, ArtifactNotFound and ToolMissing, 2 for
    Timeout).  [build-disk-image.py] exits with 1 for ArtifactNotFound and
    ToolMissing and with 0 otherwise: after a timeout, and after every
    launch that completed, whatever it printed. *)
Theorem C2_exit_codes (w : env) (d : disk) :
  (forall c, T.verdict w d = Some c -> T.exit_status w d = spec_exit_code c) /\
  (forall c, B.verdict w d = Some c -> B.exit_status w d = build_exit_code c) /\
  (forall r, path_exists w kernel_path = true -> B.launched w d = inr r ->
             B.exit_status w d = 0).
Proof.
  split; [| split].
  - intros c V.
    destruct (path_exists w kernel_path) eqn:K.
    + destruct (T.inspected w d) as [e | r0] eqn:I.
      * destruct (test_verdict_inspect_raised w d e K I) as [V' _]. congruence.
      * destruct (T.launched w d) as [e | r] eqn:L.
        -- pose proof (test_verdict_launch_raised w d r0 e K I L) as R.
           destruct e; destruct R as [V' X]; rewrite X;
             rewrite V' in V; try discriminate V;
             injection V as <-; reflexivity.
        -- destruct (test_verdict_completed w d r0 r K I L) as [V' X].
           rewrite X. rewrite V' in V. injection V as <-.
           destruct (str_in "BOOTOK" (stdout r));
             [| destruct (str_in "S6" (stdout r))]; reflexivity.
    + destruct (test_verdict_no_kernel w d K) as [V' X].
      rewrite X. rewrite V' in V. injection V as <-. reflexivity.
  - intros c V.
    destruct (path_exists w kernel_path) eqn:K.
    + destruct (B.launched w d) as [e | r] eqn:L.
      * pose proof (build_verdict_launch_raised w d e K L) as R.
        destruct e; destruct R as [V' X]; rewrite X;
          rewrite V' in V; try discriminate V;
          injection V as <-; reflexivity.
      * destruct (build_verdict_completed w d r K L) as [V' _]. congruence.
    + destruct (build_verdict_no_kernel w d K) as [V' X].
      rewrite X. rewrite V' in V. injection V as <-. reflexivity.
  - intros r K L. apply (build_verdict_completed w d r K L).
Qed.

Lemma C2_exit_codes_witness :
  T.exit_status Examples.looping empty_disk = 2 /\
  B.exit_status Examples.looping empty_disk = 0 /\
  B.exit_status Examples.silent empty_disk = 0.
Proof.
  split; [| split].
  - exact (proj1 (C2_exit_codes Examples.looping empty_disk)
             Timeout eq_refl).
  - exact (proj1 (proj2 (C2_exit_codes Examples.looping empty_disk))
             Timeout eq_refl).
  - exact (proj2 (proj2 (C2_exit_codes Examples.silent empty_disk))
             _ eq_refl eq_refl).
Defined.

(** C2 as stated fails on [build-disk-image.py]: a run that times out is
    reported as such and exits with 0, not with 2. *)
Lemma C2_timeout_exits_zero :
  B.launched Examples.looping empty_disk =
    inl (TimeoutExpired "Command timed out" "[S6] Stage 6 BOOTOK" "") /\
  B.verdict Examples.looping empty_disk = Some Timeout /\
  B.exit_status Examples.looping empty_disk = 0 /\
  B.exit_status Examples.looping empty_disk <> spec_exit_code Timeout.
Proof. repeat split. discriminate. Qed.

(** ** Diagnostic output *)



(** After a timeout the lines printed are those of the prelude and the
    timeout notice, whatever was captured before the deadline. *)
Lemma timeout_prints_notice_only (w : env) (d : disk) (str out err : string) :
  path_exists w kernel_path = true ->
  (forall r0,
     T.inspected w d = inr r0 ->
     T.launched w d = inl (TimeoutExpired str out err) ->
     printed (events (fst (T.run w d))) =
       (printed (T.launch_prelude r0) ++ [T.msg_timeout])%list) /\
  (B.launched w d = inl (TimeoutExpired str out err) ->
   printed (events (fst (B.run w d))) =
     (printed B.launch_prelude ++ [B.msg_timeout])%list).
Proof.
  intros K. split.
  - intros r0 I L.
    destruct (test_run_launch_raised w d r0 _ K I L) as [d' E].
    rewrite E. cbn [fst events]. rewrite printed_app. reflexivity.
  - intros L.
    destruct (build_run_launch_raised w d _ K L) as [d' E].
    rewrite E. cbn [fst events]. rewrite printed_app. reflexivity.
Qed.


(** ** The inspection step *)

(** What the inspection step printed or returned does not reach the
    decision: two runs that differ only in the section dump get the same
    class and the same exit status. *)
Lemma inspection_output_ignored (w1 w2 : env) (d1 d2 : disk)
    (a1 a2 : CompletedProcess) :
  path_exists w1 kernel_path = true ->
  path_exists w2 kernel_path = true ->
  T.inspected w1 d1 = inr a1 ->
  T.inspected w2 d2 = inr a2 ->
  T.launched w1 d1 = T.launched w2 d2 ->
  T.verdict w1 d1 = T.verdict w2 d2 /\ T.exit_status w1 d1 = T.exit_status w2 d2.
Proof.
  intros K1 K2 I1 I2 L.
  destruct (T.launched w1 d1) as [e | r] eqn:L1; symmetry in L.
  - pose proof (test_verdict_launch_raised w1 d1 a1 e K1 I1 L1) as R1.
    pose proof (test_verdict_launch_raised w2 d2 a2 e K2 I2 L) as R2.
    destruct e; destruct R1 as [-> ->]; destruct R2 as [-> ->];
      split; reflexivity.
  - destruct (test_verdict_completed w1 d1 a1 r K1 I1 L1) as [-> ->].
    destruct (test_verdict_completed w2 d2 a2 r K2 I2 L) as [-> ->].
    split; reflexivity.
Qed.

(** C8 at the failing input: the kernel is built and would boot to
    BOOTOK, but [objdump] is not installed.  The [FileNotFoundError] of
    the inspection step leaves [main]: QEMU is never started, no class is
    reported and the script ends with status 1, where the same machine
    with [objdump] installed reports Success and exits with 0. *)
Theorem C8_absent_inspection_tool_aborts :
  T.launched Examples.no_objdump empty_disk =
    T.launched Examples.booted empty_disk /\
  snd (T.run Examples.no_objdump empty_disk) =
    Abrupt (Raised (Examples.no_such_file "objdump")) /\
  started (events (fst (T.run Examples.no_objdump empty_disk))) =
    [T.objdump_cmd] /\
  T.verdict Examples.no_objdump empty_disk = None /\
  T.exit_status Examples.no_objdump empty_disk = 1 /\
  T.verdict Examples.booted empty_disk = Some Success /\
  T.exit_status Examples.booted empty_disk = 0.
Proof. repeat split. Qed.

(** ** The child of create-uefi-image.py *)

Section Shim.

Import CreateUefiImage.

Variable lib : bootloader_module.
Variable d : disk.


(** The library raises: the child prints the message on its own stdout,
    exits with 1 and has not opened the image file. *)
Lemma shim_library_raises msg :
  import_error lib = None ->
  create_disk_images lib kernel_path = inl msg ->
  python3_shim lib d =
    (inr (mkCompleted ("Error: " ++ msg ++ newline) "" 1), d).
Proof.
  intros H H0.
  unfold python3_shim, child, shim_main, import_bootloader,
    call_create_disk_images.
  rewrite H, H0. reflexivity.
Qed.



End Shim.




Lemma line_printed_iff (line : string) (t : list event) :
  line_printed line t = true <-> In line (printed t).
Proof.
  unfold line_printed. rewrite existsb_exists. split.
  - intros (x & Hin & Heq). apply String.eqb_eq in Heq. now subst.
  - intros H. exists line. split; [assumption | apply String.eqb_refl].
Qed.

(** ** The locator *)

(** C4, as the scripts have it: when the kernel file does not exist,
    each of the three scripts stops before it starts any child process,
    having done nothing but print, with the disk as it was and exit
    status 1, and what it printed names the missing path.  The build
    command to run is part of the message of [create-uefi-image.py]. *)
Theorem C4_missing_kernel_fails_fast (w : env) (d : disk) :
  path_exists w kernel_path = false ->
  (started (events (fst (U.run w d))) = [] /\
   only_prints (events (fst (U.run w d))) /\
   files (fst (U.run w d)) = d /\
   U.exit_status w d = 1 /\
   shown kernel_path (fst (U.run w d)) /\
   shown U.remediation_command (fst (U.run w d))) /\
  (started (events (fst (B.run w d))) = [] /\
   only_prints (events (fst (B.run w d))) /\
   files (fst (B.run w d)) = d /\
   B.exit_status w d = 1 /\
   B.verdict w d = Some ArtifactNotFound /\
   shown kernel_path (fst (B.run w d))) /\
  (started (events (fst (T.run w d))) = [] /\
   only_prints (events (fst (T.run w d))) /\
   files (fst (T.run w d)) = d /\
   T.exit_status w d = 1 /\
   T.verdict w d = Some ArtifactNotFound /\
   shown kernel_path (fst (T.run w d))).
Proof.
  intros K. split; [| split].
  - unfold U.exit_status. rewrite (uefi_run_no_kernel w d K).
    repeat split; apply str_in_iff; vm_compute; reflexivity.
  - destruct (build_verdict_no_kernel w d K) as [V X].
    rewrite V, X. rewrite (build_run_no_kernel w d K).
    repeat split. apply str_in_iff. vm_compute. reflexivity.
  - destruct (test_verdict_no_kernel w d K) as [V X].
    rewrite V, X. rewrite (test_run_no_kernel w d K).
    repeat split. apply str_in_iff. vm_compute. reflexivity.
Qed.

Lemma C4_missing_kernel_fails_fast_witness :
  U.exit_status Examples.no_kernel empty_disk = 1 /\
  shown U.remediation_command (fst (U.run Examples.no_kernel empty_disk)).
Proof.
  pose proof (C4_missing_kernel_fails_fast Examples.no_kernel empty_disk
                eq_refl) as (HU & _).
  split.
  - exact (proj1 (proj2 (proj2 (proj2 HU)))).
  - exact (proj2 (proj2 (proj2 (proj2 (proj2 HU))))).
Defined.

(** C4 as stated fails on the two launching scripts: with the kernel
    missing they report the path only, and the build command is nowhere
    in what they print. *)
Lemma C4_no_remediation_in_launch_scripts :
  path_exists Examples.no_kernel kernel_path = false /\
  B.verdict Examples.no_kernel empty_disk = Some ArtifactNotFound /\
  ~ shown U.remediation_command (fst (B.run Examples.no_kernel empty_disk)) /\
  ~ shown "cargo build" (fst (B.run Examples.no_kernel empty_disk)) /\
  ~ shown U.remediation_command (fst (T.run Examples.no_kernel empty_disk)).
Proof.
  repeat split; apply str_in_false_iff; vm_compute; reflexivity.
Qed.

(** ** The image builder *)

Lemma alternatives_in_fallback (a : string) :
  In a U.alternatives -> In a (printed U.fallback_events).
Proof. simpl. intuition. Qed.

(** C6: whenever [main] takes the fallback path it returns [False],
    having printed the alternative approaches and never the line that
    announces a created image; a run that does announce a created image
    returns [None].  The two results differ. *)
Theorem C6_fallback_is_not_success (w : env) (d : disk) :
  In U.msg_fallback (printed (events (fst (U.run w d)))) ->
  snd (U.run w d) = Normal (PyBool false) /\
  snd (U.run w d) <> Normal PyNone /\
  (forall a, In a U.alternatives ->
             In a (printed (events (fst (U.run w d))))) /\
  ~ In U.msg_created (printed (events (fst (U.run w d)))) /\
  (forall w' d',
     In U.msg_created (printed (events (fst (U.run w' d')))) ->
     snd (U.run w' d') = Normal PyNone).
Proof.
  intros F.
  assert (success : forall w' d',
             In U.msg_created (printed (events (fst (U.run w' d')))) ->
             snd (U.run w' d') = Normal PyNone).
  { intros w' d' C.
    destruct (path_exists w' kernel_path) eqn:K.
    - destruct (U.built w' d') as [e | r] eqn:R.
      + exfalso. rewrite (uefi_run_child_raised w' d' e K R) in C.
        cbn [fst events] in C. rewrite !printed_app in C.
        apply in_app_or in C as [C | C]; [| apply in_app_or in C as [C | C]].
        * apply line_printed_iff in C. vm_compute in C. discriminate.
        * destruct C as [C | []]. vm_compute in C. discriminate.
        * apply line_printed_iff in C. vm_compute in C. discriminate.
      + destruct (Z.eq_dec (returncode r) 0) as [Z0 | Z0].
        * rewrite (uefi_run_built w' d' r K R Z0). reflexivity.
        * exfalso. rewrite (uefi_run_child_failed w' d' r K R Z0) in C.
          apply line_printed_iff in C. vm_compute in C. discriminate.
    - exfalso. rewrite (uefi_run_no_kernel w' d' K) in C.
      apply line_printed_iff in C. vm_compute in C. discriminate. }
  destruct (path_exists w kernel_path) eqn:K.
  - destruct (U.built w d) as [e | r] eqn:R.
    + rewrite (uefi_run_child_raised w d e K R). cbn [fst snd events].
      repeat split; try discriminate; try assumption.
      * intros a Ha. rewrite !printed_app.
        apply in_or_app. right. apply in_or_app. right.
        now apply alternatives_in_fallback.
      * intros C. rewrite !printed_app in C.
        apply in_app_or in C as [C | C]; [| apply in_app_or in C as [C | C]].
        -- apply line_printed_iff in C. vm_compute in C. discriminate.
        -- destruct C as [C | []]. vm_compute in C. discriminate.
        -- apply line_printed_iff in C. vm_compute in C. discriminate.
    + destruct (Z.eq_dec (returncode r) 0) as [Z0 | Z0].
      * exfalso. rewrite (uefi_run_built w d r K R Z0) in F.
        apply line_printed_iff in F. vm_compute in F. discriminate.
      * rewrite (uefi_run_child_failed w d r K R Z0). cbn [fst snd events].
        repeat split; try discriminate; try assumption.
        -- intros a Ha. rewrite printed_app.
           apply in_or_app. right. now apply alternatives_in_fallback.
        -- intros C. apply line_printed_iff in C. vm_compute in C.
           discriminate.
  - exfalso. rewrite (uefi_run_no_kernel w d K) in F.
    apply line_printed_iff in F. vm_compute in F. discriminate.
Qed.

Lemma C6_fallback_is_not_success_witness :
  snd (U.run (uefi_env_of true Examples.absent_lib) empty_disk) =
    Normal (PyBool false) /\
  snd (U.run (uefi_env_of true Examples.good_lib) empty_disk) = Normal PyNone.
Proof.
  assert (F : In U.msg_fallback
                (printed (events (fst (U.run (uefi_env_of true Examples.absent_lib)
                                         empty_disk))))).
  { apply line_printed_iff. vm_compute. reflexivity. }
  pose proof (C6_fallback_is_not_success _ _ F) as (R & _ & _ & _ & S).
  split; [exact R |].
  apply S. apply line_printed_iff. vm_compute. reflexivity.
Defined.

(** When [create_disk_images] raises, the child has not opened the
    image file yet: the disk is as it was, the line announcing a created
    image is not printed, and [main] takes the fallback path and returns
    [False] after listing the alternatives. *)
Lemma uefi_library_error_falls_back (w : env) (d : disk)
    (lib : U.bootloader_module) (msg : string) :
  path_exists w kernel_path = true ->
  spawn w U.cmd None d = U.python3_shim lib d ->
  U.import_error lib = None ->
  U.create_disk_images lib kernel_path = inl msg ->
  files (fst (U.run w d)) = d /\
  snd (U.run w d) = Normal (PyBool false) /\
  ~ In U.msg_created (printed (events (fst (U.run w d)))) /\
  In U.msg_fallback (printed (events (fst (U.run w d)))) /\
  (forall a, In a U.alternatives ->
             In a (printed (events (fst (U.run w d))))).
Proof.
  intros K S I C.
  pose proof (shim_library_raises lib d msg I C) as P.
  assert (R : U.built w d =
              inr (mkCompleted ("Error: " ++ msg ++ newline) "" 1)).
  { unfold U.built. now rewrite S, P. }
  assert (Z1 : returncode (mkCompleted ("Error: " ++ msg ++ newline) "" 1) <> 0)
    by discriminate.
  rewrite (uefi_run_child_failed w d _ K R Z1). cbn [fst snd events files].
  rewrite S, P. repeat split.
  - intros H. apply line_printed_iff in H. vm_compute in H. discriminate.
  - apply line_printed_iff. vm_compute. reflexivity.
  - intros a Ha. rewrite printed_app. apply in_or_app. right.
    now apply alternatives_in_fallback.
Qed.

(** C9 at the failing input: the kernel is built and the library raises
    "kernel is not a valid UEFI application" during the build.  The child
    reports the message on its own stdout and exits with 1; the parent
    has captured that stdout and never prints it.  The run falls back and
    returns [False], and the library's message is nowhere in what the
    operator reads, where the claim has it surfaced. *)
Theorem C9_library_message_not_shown :
  U.built (uefi_env_of true Examples.failing_lib) empty_disk =
    inr (mkCompleted
           ("Error: kernel is not a valid UEFI application" ++ newline) "" 1) /\
  snd (U.run (uefi_env_of true Examples.failing_lib) empty_disk) =
    Normal (PyBool false) /\
  line_printed U.msg_fallback
    (events (fst (U.run (uefi_env_of true Examples.failing_lib) empty_disk))) =
    true /\
  ~ shown "kernel is not a valid UEFI application"
      (fst (U.run (uefi_env_of true Examples.failing_lib) empty_disk)).
Proof.
  split; [reflexivity | split; [reflexivity | split; [reflexivity |]]].
  apply str_in_false_iff. vm_compute. reflexivity.
Qed.

(** * Further properties of the scripts *)

(** ** Occurrence *)

Lemma Occurs_trans (a b c : string) : Occurs a b -> Occurs b c -> Occurs a c.
Proof.
  intros (p1 & q1 & ->) (p2 & q2 & ->).
  exists (p2 ++ p1), (q1 ++ q2). now rewrite !append_assoc.
Qed.

Lemma append_nil_r (a : string) : a ++ "" = a.
Proof. induction a as [|x a IH]; simpl; [reflexivity | now rewrite IH]. Qed.

Lemma Occurs_suffix (a b : string) : Occurs a (b ++ a).
Proof. exists b, "". now rewrite append_nil_r. Qed.

(** ** run_command *)

(** X1: [run_command(cmd, check=True)] on a child that ended with a
    status other than 0 prints the command, the heading naming its first
    word and the child's stderr, and leaves through [sys.exit(1)], which
    no [except Exception] handler around the call intercepts.  With
    [check=False] the same child is handed back to the caller after the
    command line alone was printed. *)
Theorem X1_run_command_check (w : env) (ev : list event) (dk : disk)
    (cmd : list string) (r : CompletedProcess)
    (handler : exn -> option (Py CompletedProcess)) :
  fst (spawn w cmd None dk) = inr r ->
  returncode r <> 0 ->
  try_except (U.run_command cmd true) handler w (mkState ev dk) =
    (mkState (ev ++ [ EPrint ("Running: " ++ join " " cmd);
                      EExec cmd None;
                      EPrint ("Error running " ++ hd "" cmd ++ ":");
                      EPrint (stderr r) ])
             (snd (spawn w cmd None dk)),
     Abrupt (SystemExit 1)) /\
  try_except (U.run_command cmd false) handler w (mkState ev dk) =
    (mkState (ev ++ [ EPrint ("Running: " ++ join " " cmd); EExec cmd None ])
             (snd (spawn w cmd None dk)),
     Normal r).
Proof.
  intros S Z0. apply Z.eqb_neq in Z0. split.
  - unfold U.run_command. py_run.
    rewrite (subprocess_run_completed _ _ _ _ _ _ S). py_run.
    rewrite Z0. cbn [negb andb]. rewrite <- !app_assoc. reflexivity.
  - unfold U.run_command. py_run.
    rewrite (subprocess_run_completed _ _ _ _ _ _ S). py_run.
    cbn [andb]. rewrite <- !app_assoc. reflexivity.
Qed.

Lemma X1_run_command_check_witness :
  snd (try_except (U.run_command ["qemu-img"; "info"] true)
         (fun _ => None) Examples.silent (mkState [] empty_disk)) =
    Abrupt (SystemExit 1).
Proof.
  assert (Z0 : returncode (mkCompleted "" "" 1) <> 0) by discriminate.
  exact (f_equal snd
           (proj1 (X1_run_command_check Examples.silent [] empty_disk
                     ["qemu-img"; "info"] _ (fun _ => None) eq_refl Z0))).
Defined.

(** ** The child of create-uefi-image.py *)



(** ** create-uefi-image.py with the shim as its child *)

Section UefiWithShim.

Variable w : env.
Variable d : disk.
Variable lib : U.bootloader_module.

Hypothesis kernel_built : path_exists w kernel_path = true.
Hypothesis child_is_shim : spawn w U.cmd None d = U.python3_shim lib d.




End UefiWithShim.







(** X6: when the child cannot be started at all ([subprocess.run]
    raises, as when [python3] is not installed), the exception is caught,
    its text is shown to the operator on the line that reports the failed
    approach, and the run goes on to the fallback and returns [False]. *)
Theorem X6_uefi_spawn_error_shown (w : env) (d : disk) (e : exn) :
  path_exists w kernel_path = true ->
  U.built w d = inl e ->
  In ("Bootloader approach failed: " ++ exn_str e)
     (printed (events (fst (U.run w d)))) /\
  shown (exn_str e) (fst (U.run w d)) /\
  In U.msg_fallback (printed (events (fst (U.run w d)))) /\
  snd (U.run w d) = Normal (PyBool false).
Proof.
  intros K R.
  assert (L : In ("Bootloader approach failed: " ++ exn_str e)
                 (printed (events (fst (U.run w d))))).
  { rewrite (uefi_run_child_raised w d e K R). cbn [fst events].
    rewrite !printed_app. apply in_or_app. right. now left. }
  split; [exact L | split; [| split]].
  - eapply Occurs_trans; [apply Occurs_suffix |].
    apply printed_line_shown. exact L.
  - apply line_printed_iff. apply uefi_fallback_taken; [assumption |].
    now rewrite R.
  - now rewrite (uefi_run_child_raised w d e K R).
Qed.

Lemma X6_uefi_spawn_error_shown_witness :
  shown "No such file or directory: 'python3'"
    (fst (U.run (env_of true Examples.sections
                   (inl (Examples.no_such_file "python3"))) empty_disk)).
Proof.
  eapply Occurs_trans;
    [| exact (proj1 (proj2 (X6_uefi_spawn_error_shown
                              (env_of true Examples.sections
                                 (inl (Examples.no_such_file "python3")))
                              empty_disk _ eq_refl eq_refl)))].
  exists "[Errno 2] ", "". reflexivity.
Defined.

(** X7: [create-uefi-image.py] never ends with an exception: whatever
    the child does, [main] returns or leaves through [sys.exit].  The
    exit status of the script is 1 when the kernel is missing and 0 in
    every other case. *)
Theorem X7_uefi_never_raises (w : env) (d : disk) :
  (forall e, snd (U.run w d) <> Abrupt (Raised e)) /\
  U.exit_status w d = (if path_exists w kernel_path then 0 else 1).
Proof.
  destruct (path_exists w kernel_path) eqn:K.
  - split; [| now apply uefi_exit_status_after_launch].
    intros e. destruct (U.built w d) as [e' | r] eqn:R.
    + now rewrite (uefi_run_child_raised w d e' K R).
    + destruct (Z.eq_dec (returncode r) 0) as [Z0 | Z0].
      * now rewrite (uefi_run_built w d r K R Z0).
      * now rewrite (uefi_run_child_failed w d r K R Z0).
  - unfold U.exit_status. rewrite (uefi_run_no_kernel w d K).
    split; [discriminate | reflexivity].
Qed.

(** X12: what the child printed never reaches the operator.  Two runs
    whose children completed print the same lines and return the same
    value as soon as the children agree on whether their exit status is
    0, whatever their captured stdout and stderr hold. *)
Theorem X12_uefi_child_output_dropped (w1 w2 : env) (d1 d2 : disk)
    (r1 r2 : CompletedProcess) :
  path_exists w1 kernel_path = true ->
  path_exists w2 kernel_path = true ->
  U.built w1 d1 = inr r1 ->
  U.built w2 d2 = inr r2 ->
  (returncode r1 = 0 <-> returncode r2 = 0) ->
  events (fst (U.run w1 d1)) = events (fst (U.run w2 d2)) /\
  snd (U.run w1 d1) = snd (U.run w2 d2).
Proof.
  intros K1 K2 R1 R2 Z.
  destruct (Z.eq_dec (returncode r1) 0) as [Z1 | Z1].
  - rewrite (uefi_run_built w1 d1 r1 K1 R1 Z1).
    rewrite (uefi_run_built w2 d2 r2 K2 R2 (proj1 Z Z1)). now split.
  - assert (Z2 : returncode r2 <> 0) by (intros H; apply Z1, Z, H).
    rewrite (uefi_run_child_failed w1 d1 r1 K1 R1 Z1).
    rewrite (uefi_run_child_failed w2 d2 r2 K2 R2 Z2). now split.
Qed.

Lemma X12_uefi_child_output_dropped_witness :
  events (fst (U.run (uefi_env_of true Examples.failing_lib) empty_disk)) =
  events (fst (U.run (uefi_env_of true Examples.absent_lib) empty_disk)).
Proof.
  refine (proj1 (X12_uefi_child_output_dropped
                   (uefi_env_of true Examples.failing_lib)
                   (uefi_env_of true Examples.absent_lib)
                   empty_disk empty_disk _ _
                   eq_refl eq_refl eq_refl eq_refl _)).
  split; discriminate.
Defined.

(** ** Exit status of the launching scripts *)

(** X8: [test-x86-kernel.py] exits with 0 exactly when the kernel is
    there, the section dump completed and the launch completed with
    "BOOTOK" or "S6" somewhere in its stdout; with 2 exactly when the
    launch was cut short at the deadline; and with 1 in every other
    case. *)
Theorem X8_test_exit_status (w : env) (d : disk) :
  (T.exit_status w d = 0 <->
     path_exists w kernel_path = true /\
     exists r0 r,
       T.inspected w d = inr r0 /\ T.launched w d = inr r /\
       (Occurs "BOOTOK" (stdout r) \/ Occurs "S6" (stdout r))) /\
  (T.exit_status w d = 2 <->
     path_exists w kernel_path = true /\
     exists r0 str out err,
       T.inspected w d = inr r0 /\
       T.launched w d = inl (TimeoutExpired str out err)) /\
  (T.exit_status w d = 0 \/ T.exit_status w d = 1 \/ T.exit_status w d = 2).
Proof.
  destruct (path_exists w kernel_path) eqn:K.
  - destruct (T.inspected w d) as [e | r0] eqn:I.
    + destruct (test_verdict_inspect_raised w d e K I) as [_ X]. rewrite X.
      repeat split; try discriminate; auto.
      * intros (_ & r0 & r & H & _). discriminate.
      * intros (_ & r0 & s & o & e' & H & _). discriminate.
    + destruct (T.launched w d) as [e | r] eqn:L.
      * pose proof (test_verdict_launch_raised w d r0 e K I L) as R.
        destruct e as [s0 | s0 o0 e0 | s0]; destruct R as [_ X]; rewrite X;
          repeat split; try discriminate; auto;
          try (intros (_ & a & b & _ & H & _); discriminate);
          try (intros (_ & a & s & o & e' & _ & H); discriminate).
        now exists r0, s0, o0, e0.
      * destruct (test_verdict_completed w d r0 r K I L) as [_ X]. rewrite X.
        destruct (str_in "BOOTOK" (stdout r)) eqn:B;
          [| destruct (str_in "S6" (stdout r)) eqn:S].
        -- apply str_in_iff in B.
           repeat split; try discriminate; auto.
           ++ exists r0, r. auto.
           ++ intros (_ & a & s & o & e' & _ & H). discriminate.
        -- apply str_in_iff in S.
           repeat split; try discriminate; auto.
           ++ exists r0, r. auto.
           ++ intros (_ & a & s & o & e' & _ & H). discriminate.
        -- apply str_in_false_iff in B. apply str_in_false_iff in S.
           repeat split; try discriminate; auto.
           ++ intros (_ & a & b & _ & H & [O | O]);
                injection H as <-; contradiction.
           ++ intros (_ & a & s & o & e' & _ & H). discriminate.
  - destruct (test_verdict_no_kernel w d K) as [_ X]. rewrite X.
    repeat split; try discriminate; auto; intros [H _]; discriminate.
Qed.

(** X9: [build-disk-image.py] exits with 0 exactly when the kernel is
    there and the launch completed or was cut short at the deadline, and
    with 1 in every other case. *)
Theorem X9_build_exit_status (w : env) (d : disk) :
  (B.exit_status w d = 0 <->
     path_exists w kernel_path = true /\
     ((exists r, B.launched w d = inr r) \/
      (exists str out err, B.launched w d = inl (TimeoutExpired str out err)))) /\
  (B.exit_status w d = 0 \/ B.exit_status w d = 1).
Proof.
  destruct (path_exists w kernel_path) eqn:K.
  - destruct (B.launched w d) as [e | r] eqn:L.
    + pose proof (build_verdict_launch_raised w d e K L) as R.
      destruct e as [s0 | s0 o0 e0 | s0]; destruct R as [_ X]; rewrite X;
        repeat split; try discriminate; auto.
      * intros (_ & [[r H] | (s & o & e' & H)]); discriminate.
      * right. now exists s0, o0, e0.
      * intros (_ & [[r H] | (s & o & e' & H)]); discriminate.
    + destruct (build_verdict_completed w d r K L) as [_ X]. rewrite X.
      repeat split; auto. left. now exists r.
  - destruct (build_verdict_no_kernel w d K) as [_ X]. rewrite X.
    repeat split; try discriminate; auto. intros [H _]. discriminate.
Qed.

Lemma X8_test_exit_status_witness :
  T.exit_status Examples.stage6 empty_disk = 0 /\
  T.exit_status Examples.looping empty_disk = 2.
Proof.
  split.
  - apply (proj1 (X8_test_exit_status Examples.stage6 empty_disk)).
    split; [reflexivity |]. do 2 eexists. repeat split.
    right. exists "[", "] Stage 6". reflexivity.
  - apply (proj1 (proj2 (X8_test_exit_status Examples.looping empty_disk))).
    split; [reflexivity |]. do 4 eexists. split; reflexivity.
Defined.

Lemma X9_build_exit_status_witness :
  B.exit_status Examples.silent empty_disk = 0.
Proof.
  apply (proj1 (X9_build_exit_status Examples.silent empty_disk)).
  split; [reflexivity |]. left. eexists. reflexivity.
Defined.

(** ** Children started *)

(** X10: the commands a run starts, in order.  [test-x86-kernel.py]
    starts nothing when the kernel is missing, [objdump] alone when the
    section dump raises, and [objdump] then QEMU otherwise;
    [build-disk-image.py] and [create-uefi-image.py] start their one
    command exactly when the kernel is there.  No run starts a command
    twice: nothing is retried, whatever the outcome. *)
Theorem X10_children_started (w : env) (d : disk) :
  started (events (fst (T.run w d))) =
    (if path_exists w kernel_path then
       match T.inspected w d with
       | inl _ => [T.objdump_cmd]
       | inr _ => [T.objdump_cmd; T.cmd]
       end
     else []) /\
  started (events (fst (B.run w d))) =
    (if path_exists w kernel_path then [B.cmd] else []) /\
  started (events (fst (U.run w d))) =
    (if path_exists w kernel_path then [U.cmd] else []) /\
  NoDup (started (events (fst (T.run w d)))) /\
  NoDup (started (events (fst (B.run w d)))) /\
  NoDup (started (events (fst (U.run w d)))).
Proof.
  assert (ET : started (events (fst (T.run w d))) =
               (if path_exists w kernel_path then
                  match T.inspected w d with
                  | inl _ => [T.objdump_cmd]
                  | inr _ => [T.objdump_cmd; T.cmd]
                  end
                else [])).
  { destruct (path_exists w kernel_path) eqn:K.
    - destruct (T.inspected w d) as [e | r0] eqn:I.
      + destruct (test_run_inspect_raised w d e K I) as [d' ->]. reflexivity.
      + destruct (T.launched w d) as [e | r] eqn:L.
        * destruct (test_run_launch_raised w d r0 e K I L) as [d' E].
          destruct e; rewrite E; reflexivity.
        * destruct (test_run_completed w d r0 r K I L) as [d' ->].
          cbn [fst events]. rewrite !started_app. reflexivity.
    - now rewrite (test_run_no_kernel w d K). }
  assert (EB : started (events (fst (B.run w d))) =
               (if path_exists w kernel_path then [B.cmd] else [])).
  { destruct (path_exists w kernel_path) eqn:K.
    - destruct (B.launched w d) as [e | r] eqn:L.
      + destruct (build_run_launch_raised w d e K L) as [d' E].
        destruct e; rewrite E; reflexivity.
      + destruct (build_run_completed w d r K L) as [d' ->]. reflexivity.
    - now rewrite (build_run_no_kernel w d K). }
  assert (EU : started (events (fst (U.run w d))) =
               (if path_exists w kernel_path then [U.cmd] else [])).
  { destruct (path_exists w kernel_path) eqn:K.
    - destruct (U.built w d) as [e | r] eqn:R.
      + rewrite (uefi_run_child_raised w d e K R). cbn [fst events].
        rewrite !started_app. reflexivity.
      + destruct (Z.eq_dec (returncode r) 0) as [Z0 | Z0].
        * now rewrite (uefi_run_built w d r K R Z0).
        * now rewrite (uefi_run_child_failed w d r K R Z0).
    - now rewrite (uefi_run_no_kernel w d K). }
  rewrite ET, EB, EU. repeat split.
  - destruct (path_exists w kernel_path); [| constructor].
    destruct (T.inspected w d).
    + repeat constructor. intros [].
    + repeat constructor; [| intros []].
      intros [H | []]. vm_compute in H. discriminate.
  - destruct (path_exists w kernel_path); repeat constructor. intros [].
  - destruct (path_exists w kernel_path); repeat constructor. intros [].
Qed.

(** ** Noise around the markers *)

Lemma str_in_embedded (needle s before after : string) :
  str_in needle s = true ->
  str_in needle (before ++ s ++ after) = true.
Proof.
  intros H. apply str_in_iff. apply str_in_iff in H.
  eapply Occurs_trans; [exact H |]. now exists before, after.
Qed.

(** X11: text added before or after what the kernel printed never lowers
    the class.  If a launch is reported Success, every launch whose stdout
    contains that stdout is reported Success; if it is reported
    PartialSuccess, the longer one is reported PartialSuccess or Success;
    and a run that exits with 0 still exits with 0. *)
Theorem X11_noise_never_lowers_class (w w' : env) (d d' : disk)
    (r0 r0' r r' : CompletedProcess) (before after : string) :
  path_exists w kernel_path = true ->
  path_exists w' kernel_path = true ->
  T.inspected w d = inr r0 ->
  T.inspected w' d' = inr r0' ->
  T.launched w d = inr r ->
  T.launched w' d' = inr r' ->
  stdout r' = before ++ stdout r ++ after ->
  (T.verdict w d = Some Success -> T.verdict w' d' = Some Success) /\
  (T.verdict w d = Some PartialSuccess ->
   T.verdict w' d' = Some Success \/ T.verdict w' d' = Some PartialSuccess) /\
  (T.exit_status w d = 0 -> T.exit_status w' d' = 0).
Proof.
  intros K K' I I' L L' E.
  destruct (test_verdict_completed w d r0 r K I L) as [V X].
  destruct (test_verdict_completed w' d' r0' r' K' I' L') as [V' X'].
  rewrite V, V', X, X', E.
  pose proof (str_in_embedded "BOOTOK" (stdout r) before after) as MB.
  pose proof (str_in_embedded "S6" (stdout r) before after) as MS.
  destruct (str_in "BOOTOK" (stdout r)).
  - rewrite (MB eq_refl). repeat split; auto.
  - destruct (str_in "BOOTOK" (before ++ stdout r ++ after)).
    + repeat split; auto; discriminate.
    + destruct (str_in "S6" (stdout r)).
      * rewrite (MS eq_refl). repeat split; auto; discriminate.
      * repeat split; discriminate.
Qed.

Lemma X11_noise_never_lowers_class_witness :
  T.verdict Examples.booted empty_disk = Some Success.
Proof.
  refine (proj1 (X11_noise_never_lowers_class
                   (env_of true Examples.sections
                      (inr (mkCompleted "BOOTOK" "" 0)))
                   Examples.booted empty_disk empty_disk
                   _ _ _ _ "[S6] Stage 6 " ""
                   eq_refl eq_refl eq_refl eq_refl eq_refl eq_refl eq_refl) _).
  reflexivity.
Defined.

(** ** What the section dump leaves behind *)

(** X13: of the section dump only the captured stdout is used.  Two runs
    whose dumps completed with the same stdout, and whose launches did the
    same, show the same events and end the same way, whatever the dumps'
    stderr and exit status were: a failing [objdump] is not reported. *)
Theorem X13_inspection_stderr_dropped (w1 w2 : env) (d1 d2 : disk)
    (a1 a2 : CompletedProcess) :
  path_exists w1 kernel_path = true ->
  path_exists w2 kernel_path = true ->
  T.inspected w1 d1 = inr a1 ->
  T.inspected w2 d2 = inr a2 ->
  stdout a1 = stdout a2 ->
  T.launched w1 d1 = T.launched w2 d2 ->
  events (fst (T.run w1 d1)) = events (fst (T.run w2 d2)) /\
  snd (T.run w1 d1) = snd (T.run w2 d2).
Proof.
  intros K1 K2 I1 I2 E L.
  assert (P : T.launch_prelude a1 = T.launch_prelude a2)
    by (unfold T.launch_prelude; now rewrite E).
  destruct (T.launched w1 d1) as [e | r] eqn:L1; symmetry in L.
  - destruct (test_run_launch_raised w1 d1 a1 e K1 I1 L1) as [d1' E1].
    destruct (test_run_launch_raised w2 d2 a2 e K2 I2 L) as [d2' E2].
    rewrite E1, E2, P. destruct e; now split.
  - destruct (test_run_completed w1 d1 a1 r K1 I1 L1) as [d1' ->].
    destruct (test_run_completed w2 d2 a2 r K2 I2 L) as [d2' ->].
    rewrite P. now split.
Qed.

Lemma X13_inspection_stderr_dropped_witness :
  events (fst (T.run (env_of true (inr (mkCompleted "" "" 0))
                        (inr (mkCompleted "[S6] Stage 6 BOOTOK"
                                "qemu: warning: TCG" 33)))
                 empty_disk)) =
  events (fst (T.run Examples.booted_noisy empty_disk)).
Proof.
  exact (proj1 (X13_inspection_stderr_dropped
                  (env_of true (inr (mkCompleted "" "" 0))
                     (inr (mkCompleted "[S6] Stage 6 BOOTOK"
                             "qemu: warning: TCG" 33)))
                  Examples.booted_noisy empty_disk empty_disk _ _
                  eq_refl eq_refl eq_refl eq_refl eq_refl eq_refl)).
Defined.
